(** * Verification of the webpack configuration of webpack-template

  The repository holds two versions of the bundler configuration:

  - the configuration factory [module.exports = (env) => { ... }]
    (source file [unnamed/part_000]), embedded in [Module ConfigFactory];
  - the older top-level configuration object [webpack.config.js], which
    reads [process.env], embedded in [Module StaticConfig].

  Both are embedded shallowly: JavaScript values are a small inductive
  type, objects read by the code are finite maps, object literals are
  records, [Array.prototype.push] on a freshly created local array is
  explicit state passing on a list. *)

From Stdlib Require Import ZArith.
From stdpp Require Import base decidable option list strings gmap.

Local Open Scope string_scope.

(** ** JavaScript values and operators used by the configuration *)

Module Js.

(** The values that can reach [env.MODE], [env.PORT] and the rest
    parameters: the primitives, and objects as opaque references (the code
    only compares them and tests their truthiness).  Numbers are the
    integer-valued ones; [NaN], fractions, bigints and symbols are left
    out. *)
Inductive JsValue : Type :=
| JUndefined
| JNull
| JBool (b : bool)
| JNumber (n : Z)
| JString (s : string)
| JObject (ref : nat).

#[global] Instance JsValue_eq_dec : EqDecision JsValue.
Proof. solve_decision. Defined.

(** [a === b]: by value on primitives, by reference on objects. *)
Definition strict_eq (a b : JsValue) : bool :=
  match a, b with
  | JUndefined, JUndefined => true
  | JNull, JNull => true
  | JBool x, JBool y => Bool.eqb x y
  | JNumber x, JNumber y => (x =? y)%Z
  | JString x, JString y => String.eqb x y
  | JObject x, JObject y => Nat.eqb x y
  | _, _ => false
  end.

(** [ToBoolean]. *)
Definition truthy (a : JsValue) : bool :=
  match a with
  | JUndefined | JNull => false
  | JBool b => b
  | JNumber n => negb (n =? 0)%Z
  | JString s => negb (String.eqb s "")
  | JObject _ => true
  end.

(** [a || b] on values. *)
Definition or_else (a b : JsValue) : JsValue :=
  if truthy a then a else b.

(** [a ?? b]. *)
Definition nullish (a b : JsValue) : JsValue :=
  match a with
  | JUndefined | JNull => b
  | _ => a
  end.

(** [obj.key] on a plain object: a missing property reads [undefined]. *)
Definition get (obj : gmap string JsValue) (key : string) : JsValue :=
  default JUndefined (obj !! key).

(** [arr.findIndex(p)]: index of the first element satisfying [p],
    [-1] when there is none. *)
Fixpoint findIndex {A : Type} (p : A → bool) (arr : list A) : Z :=
  match arr with
  | [] => (-1)%Z
  | x :: rest =>
      if p x then 0%Z
      else let i := findIndex p rest in
           if (i =? -1)%Z then (-1)%Z else (i + 1)%Z
  end.

(** [arr.push(x)] and [arr.push(...xs)] as state passing. *)
Definition push {A : Type} (arr : list A) (x : A) : list A := arr ++ [x].
Definition push_all {A : Type} (arr xs : list A) : list A := arr ++ xs.

End Js.

Export Js.

Coercion JString : string >-> JsValue.
Notation "a === b" := (strict_eq a b) (at level 60, no associativity).
Notation "a !== b" := (negb (Z.eqb a b)) (at level 60, no associativity).

(** ** The shape of a bundler configuration *)

Module Webpack.

(** A regular-expression literal [/source/flags]. *)
Record RegExp : Type := { source : string; flags : string }.

Record CssModules : Type := {
  auto : RegExp;
  namedExport : bool;
  exportLocalsConvention : string;
  localIdentName : string;
}.

Inductive LoaderOptions : Type :=
| CssLoaderOptions (modules : CssModules)
| BabelOptions (presets : list string).

(** An entry of a [use] chain: a loader name, or [{ loader, options }]. *)
Inductive UseEntry : Type :=
| UseStr (loader : string)
| UseObj (loader : string) (options : LoaderOptions).

Record Generator : Type := { gen_filename : string }.

Record Rule : Type := {
  test : RegExp;
  exclude : option RegExp;
  use : option (list UseEntry);
  type : option string;
  generator : option Generator;
}.

Record ModuleRules : Type := { rules : list Rule }.

(** Plugin instances, with the options they are constructed from.
    [DefinePlugin] carries the parsed [.env] file, when there is one. *)
Inductive Plugin : Type :=
| HtmlWebpackPlugin (template : string) (collapseWhitespace removeComments : bool)
| CleanWebpackPlugin
| MiniCssExtractPlugin (filename : string)
| Dotenv
| DefinePlugin (process_env : option (gmap string string))
| TerserWebpackPlugin.

Record SplitChunks : Type := { chunks : string }.

Record Optimization : Type := {
  splitChunks : SplitChunks;
  minimizer : option (list Plugin);
}.

Record Entry : Type := { main : list string }.
Record Output : Type := { out_filename : string; out_path : string }.
Record Resolve : Type := { extensions : list string; alias_at : string }.

Record Performance : Type := {
  hints : bool;
  maxEntrypointSize : Z;
  maxAssetSize : Z;
}.

Record DevServerClient : Type := { progress : bool }.

Record DevServer : Type := {
  static_directory : string;
  port : JsValue;
  open : bool;
  hot : bool;
  compress : bool;
  historyApiFallback : bool;
  client : option DevServerClient;
}.

Record Config : Type := {
  context : string;
  entry : Entry;
  mode : string;
  output : Output;
  resolve : Resolve;
  performance : Performance;
  devServer : DevServer;
  optimization : Optimization;
  plugins : list Plugin;
  module : ModuleRules;
  name : option string;
}.

#[global] Instance RegExp_eq_dec : EqDecision RegExp.
Proof. solve_decision. Defined.
#[global] Instance CssModules_eq_dec : EqDecision CssModules.
Proof. solve_decision. Defined.
#[global] Instance LoaderOptions_eq_dec : EqDecision LoaderOptions.
Proof. solve_decision. Defined.
#[global] Instance UseEntry_eq_dec : EqDecision UseEntry.
Proof. solve_decision. Defined.
#[global] Instance Generator_eq_dec : EqDecision Generator.
Proof. solve_decision. Defined.
#[global] Instance Rule_eq_dec : EqDecision Rule.
Proof. solve_decision. Defined.
#[global] Instance Plugin_eq_dec : EqDecision Plugin.
Proof. solve_decision. Defined.

(** [config.rules.push(rule)]. *)
Definition rules_push (config : ModuleRules) (rule : Rule) : ModuleRules :=
  {| rules := push (rules config) rule |}.

(** Object spread with overriding properties:
    [{ ...base, name: n, entry: e }] and its longer forms. *)
Definition spread_name_entry (base : Config) (n : string) (e : Entry) : Config :=
  {| context := context base; entry := e; mode := mode base;
     output := output base; resolve := resolve base;
     performance := performance base; devServer := devServer base;
     optimization := optimization base; plugins := plugins base;
     module := module base; name := Some n |}.

Definition spread_module (base : Config) (m : ModuleRules) : Config :=
  {| context := context base; entry := entry base; mode := mode base;
     output := output base; resolve := resolve base;
     performance := performance base; devServer := devServer base;
     optimization := optimization base; plugins := plugins base;
     module := m; name := name base |}.

Definition spread_resolve (base : Config) (r : Resolve) : Config :=
  {| context := context base; entry := entry base; mode := mode base;
     output := output base; resolve := r;
     performance := performance base; devServer := devServer base;
     optimization := optimization base; plugins := plugins base;
     module := module base; name := name base |}.

End Webpack.

Export Webpack.


(** ** The configuration factory (source file [unnamed/part_000])

    [module.exports = (env) => { ... }].  The bundler calls the factory
    with an object, [env].  The helper functions of the source are closures
    over [isDev]; here they live in a section over [env], so that each of
    them takes [env] once the section is closed.  What the
    file gets from Node and from its packages is a section variable:
    [__dirname], [path.resolve], [path.join] and the string
    [MiniCssExtractPlugin.loader]. *)

Module ConfigFactory.

Section Factory.

Variable __dirname : string.
Variables path_resolve path_join : string → string → string.
Variable MiniCssExtractPlugin_loader : string.

Variable env : gmap string JsValue.

Definition isDev : bool :=
  (get env "MODE" === "development") || (get env "MODE" === "dev").

Definition PORT : JsValue := or_else (get env "PORT") (JNumber 3000).

Definition MODE_DEV : JsValue := nullish (JBool isDev) "development".

Definition getBabelOpts (preset : list string) : LoaderOptions :=
  let opts := ["@babel/preset-env"] in
  let opts := if (0 <? length preset)%nat then push_all opts preset else opts in
  BabelOptions opts.

Definition getOptimization : Optimization :=
  let config := {| splitChunks := {| chunks := "all" |}; minimizer := None |} in
  let config :=
    if negb isDev
    then {| splitChunks := splitChunks config;
            minimizer := Some [TerserWebpackPlugin] |}
    else config in
  config.

Definition getStyleLoaders (preset : list JsValue) : list UseEntry :=
  let config :=
    [UseStr (if isDev then "style-loader" else MiniCssExtractPlugin_loader)] in
  let config :=
    if findIndex (λ ext, ext === "css-modules") preset !== -1
    then push config
           (UseObj "css-loader"
              (CssLoaderOptions
                 {| auto := {| source := "\.module\.\w+"; flags := "i" |};
                    namedExport := false;
                    exportLocalsConvention := "as-is";
                    localIdentName := "[folder]__[local]___[hash:base64:5]" |}))
    else push config (UseStr "css-loader") in
  let config :=
    if findIndex (λ ext, ext === "tailwind") preset !== -1
    then push config (UseStr "postcss-loader")
    else config in
  let config :=
    if findIndex (λ ext, ext === "scss") preset !== -1
    then push config (UseStr "sass-loader")
    else config in
  config.

Definition getModuleRules (addSupportFiles : list JsValue) : ModuleRules :=
  let stylesPreset : list JsValue := [] in
  let stylesPreset :=
    if findIndex (λ ext, ext === "tailwind") addSupportFiles !== -1
    then push stylesPreset (JString "tailwind")
    else stylesPreset in
  let stylesPreset :=
    if findIndex (λ ext, ext === "css-modules") addSupportFiles !== -1
    then push stylesPreset (JString "css-modules")
    else stylesPreset in
  let config :=
    {| rules :=
         [ {| test := {| source := "\.css$"; flags := "" |};
              exclude := None;
              use := Some (getStyleLoaders stylesPreset);
              type := None; generator := None |};
           {| test := {| source := "\.(png|svg|jpg|jpeg|gif)$"; flags := "" |};
              exclude := None; use := None;
              type := Some "asset/resource";
              generator := Some {| gen_filename := "assets/[name][ext]" |} |};
           {| test := {| source := "\.(ttf|woff|eot|woff2)$"; flags := "" |};
              exclude := None; use := None;
              type := Some "asset/resource";
              generator := Some {| gen_filename := "assets/fonts/[name][ext]" |} |};
           {| test := {| source := "\.js$"; flags := "" |};
              exclude := Some {| source := "node_modules"; flags := "" |};
              use := Some [UseObj "babel-loader" (getBabelOpts [])];
              type := None; generator := None |} ] |} in
  let config :=
    if findIndex (λ ext, ext === "scss") addSupportFiles !== -1
    then rules_push config
           {| test := {| source := "\.s[ac]ss$"; flags := "" |};
              exclude := None;
              use := Some (getStyleLoaders (stylesPreset ++ [JString "scss"])%list);
              type := None; generator := None |}
    else config in
  let config :=
    if findIndex (λ ext, ext === "xml") addSupportFiles !== -1
    then rules_push config
           {| test := {| source := "\.xml$"; flags := "" |};
              exclude := None;
              use := Some [UseStr "xml-loader"];
              type := None; generator := None |}
    else config in
  let config :=
    if findIndex (λ ext, ext === "csv") addSupportFiles !== -1
    then rules_push config
           {| test := {| source := "\.csv$"; flags := "" |};
              exclude := None;
              use := Some [UseStr "csv-loader"];
              type := None; generator := None |}
    else config in
  let config :=
    if findIndex (λ ext, ext === "ts") addSupportFiles !== -1
    then rules_push config
           {| test := {| source := "\.ts$"; flags := "" |};
              exclude := Some {| source := "node_modules"; flags := "" |};
              use := Some [UseObj "babel-loader"
                             (getBabelOpts ["@babel/preset-typescript"])];
              type := None; generator := None |}
    else config in
  let config :=
    if findIndex (λ ext, ext === "react") addSupportFiles !== -1
    then
      let loaderOptions := ["@babel/preset-react"] in
      let loaderOptions :=
        if findIndex (λ ext, ext === "ts") addSupportFiles !== -1
        then push loaderOptions "@babel/preset-typescript"
        else loaderOptions in
      rules_push config
        {| test := {| source := "\.[jt]sx$"; flags := "" |};
           exclude := Some {| source := "node_modules"; flags := "" |};
           use := Some [UseObj "babel-loader" (getBabelOpts loaderOptions)];
           type := None; generator := None |}
    else config in
  config.

Definition mainConfigOptions : Config :=
  {| context := path_resolve __dirname "src";
     entry := {| main := ["@babel/polyfill"; "./index.js"] |};
     mode := if truthy MODE_DEV then "development" else "production";
     output := {| out_filename := "[name].[hash].js";
                  out_path := String.append __dirname "/dist" |};
     resolve := {| extensions := [".js"; ".scss"; ".css"];
                   alias_at := path_resolve __dirname "src" |};
     performance := {| hints := false;
                       maxEntrypointSize := 512000;
                       maxAssetSize := 512000 |};
     devServer := {| static_directory := path_join __dirname "dist";
                     port := PORT;
                     open := true;
                     hot := true;
                     compress := true;
                     historyApiFallback := true;
                     client := Some {| progress := true |} |};
     optimization := getOptimization;
     plugins :=
       [ HtmlWebpackPlugin "./index.html"
           (if isDev then false else true)
           (if isDev then false else true);
         CleanWebpackPlugin;
         MiniCssExtractPlugin "[name].[hash].css";
         Dotenv ];
     module := getModuleRules [JString "scss"];
     name := None |}.

(** The value returned by the factory: the four named variants. *)
Definition module_exports : list Config :=
  [ spread_name_entry mainConfigOptions "html-scss-js"
      {| main := ["@babel/polyfill"; "./index.js"] |};
    spread_module
      (spread_name_entry mainConfigOptions "html-scss-js-tailwind"
         {| main := ["@babel/polyfill"; "./index.js"] |})
      (getModuleRules [JString "scss"; JString "tailwind"]);
    spread_module
      (spread_resolve
         (spread_name_entry mainConfigOptions "react-ts-scss-cssModules"
            {| main := ["@babel/polyfill"; "./index.tsx"] |})
         {| extensions := [".js"; ".jsx"; ".ts"; ".tsx"; ".scss"; ".css"];
            alias_at := path_resolve __dirname "src" |})
      (getModuleRules
         [JString "scss"; JString "react"; JString "ts"; JString "css-modules"]);
    spread_module
      (spread_resolve
         (spread_name_entry mainConfigOptions "react-ts-scss-cssModules-tailwind"
            {| main := ["@babel/polyfill"; "./index.tsx"] |})
         {| extensions := [".js"; ".jsx"; ".ts"; ".tsx"; ".scss"; ".css"];
            alias_at := path_resolve __dirname "src" |})
      (getModuleRules
         [JString "scss"; JString "react"; JString "ts"; JString "css-modules";
          JString "tailwind"]) ].

End Factory.

End ConfigFactory.


(** ** The top-level configuration object (source file [webpack.config.js])

    The older file builds one configuration when the module is loaded.  It
    reads [process.env] after [dotenv] has been run on the [.env] file:
    [process_env] is the environment as the file sees it at that point, and
    [dotenv_parsed] is [dotenv.parsed] ([None] when the file could not be
    read). *)

Module StaticConfig.

Section Static.

Variable __dirname : string.
Variables path_resolve path_join : string → string → string.
Variable MiniCssExtractPlugin_loader : string.

Variable process_env : gmap string string.
Variable dotenv_parsed : option (gmap string string).

(** [process.env.KEY]: a string, or [undefined]. *)
Definition process_env_get (key : string) : JsValue :=
  from_option JString JUndefined (process_env !! key).

Definition isDev : bool :=
  (process_env_get "MODE" === "development") || (process_env_get "MODE" === "dev").

Definition PORT : JsValue := or_else (process_env_get "PORT") (JNumber 3000).

Definition MODE_DEV : JsValue := nullish (JBool isDev) "development".

Definition getBabelOpts (preset : list string) : LoaderOptions :=
  let opts := ["@babel/preset-env"] in
  let opts := if (0 <? length preset)%nat then push_all opts preset else opts in
  BabelOptions opts.

Definition getOptimization : Optimization :=
  let config := {| splitChunks := {| chunks := "all" |}; minimizer := None |} in
  let config :=
    if negb isDev
    then {| splitChunks := splitChunks config;
            minimizer := Some [TerserWebpackPlugin] |}
    else config in
  config.

Definition getStyleLoaders (preset : list JsValue) : list UseEntry :=
  let config :=
    [ UseStr (if isDev then "style-loader" else MiniCssExtractPlugin_loader);
      UseStr "css-loader" ] in
  let config :=
    if findIndex (λ ext, ext === "tailwind") preset !== -1
    then push config (UseStr "postcss-loader")
    else config in
  let config :=
    if findIndex (λ ext, ext === "scss") preset !== -1
    then push config (UseStr "sass-loader")
    else config in
  config.

Definition getModuleRules (addSupportFiles : list JsValue) : ModuleRules :=
  let tailwindPreset : JsValue :=
    if findIndex (λ ext, ext === "tailwind") addSupportFiles !== -1
    then JString "tailwind"
    else JUndefined in
  let config :=
    {| rules :=
         [ {| test := {| source := "\.css$"; flags := "" |};
              exclude := None;
              use := Some (getStyleLoaders [tailwindPreset]);
              type := None; generator := None |};
           {| test := {| source := "\.(png|svg|jpg|jpeg|gif)$"; flags := "" |};
              exclude := None;
              use := Some [UseStr "file-loader"];
              type := None; generator := None |};
           {| test := {| source := "\.(ttf|woff|eot|woff2)$"; flags := "" |};
              exclude := None;
              use := Some [UseStr "file-loader"];
              type := None; generator := None |};
           {| test := {| source := "\.js$"; flags := "" |};
              exclude := Some {| source := "node_modules"; flags := "" |};
              use := Some [UseObj "babel-loader" (getBabelOpts [])];
              type := None; generator := None |} ] |} in
  let config :=
    if findIndex (λ ext, ext === "scss") addSupportFiles !== -1
    then
      let presets := [JString "scss"] in
      let presets :=
        if findIndex (λ ext, ext === "tailwind") addSupportFiles !== -1
        then push presets (JString "tailwind")
        else presets in
      rules_push config
        {| test := {| source := "\.s[ac]ss$"; flags := "" |};
           exclude := None;
           use := Some (getStyleLoaders presets);
           type := None; generator := None |}
    else config in
  let config :=
    if findIndex (λ ext, ext === "xml") addSupportFiles !== -1
    then rules_push config
           {| test := {| source := "\.xml$"; flags := "" |};
              exclude := None;
              use := Some [UseStr "xml-loader"];
              type := None; generator := None |}
    else config in
  let config :=
    if findIndex (λ ext, ext === "csv") addSupportFiles !== -1
    then rules_push config
           {| test := {| source := "\.csv$"; flags := "" |};
              exclude := None;
              use := Some [UseStr "csv-loader"];
              type := None; generator := None |}
    else config in
  let config :=
    if findIndex (λ ext, ext === "ts") addSupportFiles !== -1
    then rules_push config
           {| test := {| source := "\.ts$"; flags := "" |};
              exclude := Some {| source := "node_modules"; flags := "" |};
              use := Some [UseObj "babel-loader" (getBabelOpts ["ts"])];
              type := None; generator := None |}
    else config in
  let config :=
    if findIndex (λ ext, ext === "react") addSupportFiles !== -1
    then rules_push config
           {| test := {| source := "\.jsx$"; flags := "" |};
              exclude := Some {| source := "node_modules"; flags := "" |};
              use := Some [UseObj "babel-loader"
                             (getBabelOpts ["@babel/preset-react"])];
              type := None; generator := None |}
    else config in
  config.

Definition module_exports : Config :=
  {| context := path_resolve __dirname ".";
     entry := {| main := ["@babel/polyfill"; "./src/index.js"] |};
     mode := if truthy MODE_DEV then "development" else "production";
     output := {| out_filename := "[name].[hash].js";
                  out_path := String.append __dirname "/dist" |};
     resolve := {| extensions := [".js"; ".jsx"; ".ts"; ".tsx"; ".scss"; ".css"];
                   alias_at := path_resolve __dirname "src" |};
     performance := {| hints := false;
                       maxEntrypointSize := 512000;
                       maxAssetSize := 512000 |};
     devServer := {| static_directory := path_join __dirname "dist";
                     port := PORT;
                     open := true;
                     hot := true;
                     compress := true;
                     historyApiFallback := true;
                     client := None |};
     optimization := getOptimization;
     plugins :=
       [ HtmlWebpackPlugin "./src/index.html"
           (if isDev then false else true)
           (if isDev then false else true);
         CleanWebpackPlugin;
         MiniCssExtractPlugin "[name].[hash].css";
         DefinePlugin dotenv_parsed ];
     module := getModuleRules [JString "scss"];
     name := None |}.

End Static.

End StaticConfig.


(** ** Vocabulary of the specification *)

Module Spec.

(** The file patterns by which the rules of a table are told apart. *)
Definition css_files : RegExp := {| source := "\.css$"; flags := "" |}.
Definition image_files : RegExp :=
  {| source := "\.(png|svg|jpg|jpeg|gif)$"; flags := "" |}.
Definition font_files : RegExp :=
  {| source := "\.(ttf|woff|eot|woff2)$"; flags := "" |}.
Definition js_files : RegExp := {| source := "\.js$"; flags := "" |}.
Definition scss_files : RegExp := {| source := "\.s[ac]ss$"; flags := "" |}.
Definition xml_files : RegExp := {| source := "\.xml$"; flags := "" |}.
Definition csv_files : RegExp := {| source := "\.csv$"; flags := "" |}.
Definition ts_files : RegExp := {| source := "\.ts$"; flags := "" |}.
Definition jtsx_files : RegExp := {| source := "\.[jt]sx$"; flags := "" |}.
Definition jsx_files : RegExp := {| source := "\.jsx$"; flags := "" |}.
Definition node_modules : RegExp := {| source := "node_modules"; flags := "" |}.

(** The seven flags the factory's [getModuleRules] looks for. *)
Definition recognized_flags : list string :=
  ["tailwind"; "scss"; "css-modules"; "xml"; "csv"; "ts"; "react"].

(** The flags that append a rule, in the order the rules are appended, with
    the pattern of the rule each one appends. *)
Definition flag_patterns : list (string * RegExp) :=
  [ ("scss", scss_files); ("xml", xml_files); ("csv", csv_files);
    ("ts", ts_files); ("react", jtsx_files) ].

Definition rule_adding_flags : list string := flag_patterns.*1.

(** The rule count as the specification words it: three default rules and
    one more for each recognized flag supplied. *)
Definition claimed_rule_count (args : list JsValue) : nat :=
  3 + length (filter (λ f : string, JString f ∈ args) recognized_flags).

(** [supplied f args]: the flag [f] is among the arguments. *)
Definition supplied (f : string) (args : list JsValue) : bool :=
  bool_decide (JString f ∈ args).

(** A stylesheet rule: the [.css] rule or the [.scss]/[.sass] rule. *)
Definition is_style_rule (r : Rule) : Prop :=
  test r = css_files ∨ test r = scss_files.

#[global] Instance is_style_rule_dec r : Decision (is_style_rule r).
Proof. unfold is_style_rule. apply _. Defined.

(** The three rules that do not depend on any input. *)
Definition image_rule : Rule :=
  {| test := image_files; exclude := None; use := None;
     type := Some "asset/resource";
     generator := Some {| gen_filename := "assets/[name][ext]" |} |}.

Definition font_rule : Rule :=
  {| test := font_files; exclude := None; use := None;
     type := Some "asset/resource";
     generator := Some {| gen_filename := "assets/fonts/[name][ext]" |} |}.

Definition script_rule : Rule :=
  {| test := js_files; exclude := Some node_modules;
     use := Some [UseObj "babel-loader" (BabelOptions ["@babel/preset-env"])];
     type := None; generator := None |}.

(** A rule that only names a pattern and a chain. *)
Definition chain_rule (pattern : RegExp) (chain : list UseEntry) : Rule :=
  {| test := pattern; exclude := None; use := Some chain;
     type := None; generator := None |}.

(** A rule that runs [babel-loader] with the given presets, outside
    [node_modules]. *)
Definition babel_rule (pattern : RegExp) (presets : list string) : Rule :=
  {| test := pattern; exclude := Some node_modules;
     use := Some [UseObj "babel-loader" (BabelOptions presets)];
     type := None; generator := None |}.

(** The [css-loader] entry configured for scoped class names. *)
Definition css_modules_loader : UseEntry :=
  UseObj "css-loader"
    (CssLoaderOptions
       {| auto := {| source := "\.module\.\w+"; flags := "i" |};
          namedExport := false;
          exportLocalsConvention := "as-is";
          localIdentName := "[folder]__[local]___[hash:base64:5]" |}).

(** Replace the entry at the [css-loader] position (the second one) of the
    chain of a stylesheet rule; other rules are left alone. *)
Definition with_css_loader (e : UseEntry) (r : Rule) : Rule :=
  if decide (is_style_rule r)
  then {| test := test r; exclude := exclude r;
          use := (λ chain, <[1 := e]> chain) <$> use r;
          type := type r; generator := generator r |}
  else r.

(** The chain of a stylesheet rule, by what decides it: the first loader,
    and whether utility-css, scoped class names and the preprocessor are
    asked for. *)
Definition style_chain (first : string) (tailwind css_modules scss : bool)
  : list UseEntry :=
  ([UseStr first; if css_modules then css_modules_loader else UseStr "css-loader"]
   ++ (if tailwind then [UseStr "postcss-loader"] else [])
   ++ (if scss then [UseStr "sass-loader"] else []))%list.

(** The rule table of the factory in closed form, by which flags are
    supplied ([getModuleRules_table] shows that the code computes it). *)
Definition rule_table (first : string)
    (tailwind css_modules scss xml csv ts react : bool) : list Rule :=
  ([ chain_rule css_files (style_chain first tailwind css_modules false);
     image_rule; font_rule; script_rule ]
   ++ (if scss
       then [chain_rule scss_files (style_chain first tailwind css_modules true)]
       else [])
   ++ (if xml then [chain_rule xml_files [UseStr "xml-loader"]] else [])
   ++ (if csv then [chain_rule csv_files [UseStr "csv-loader"]] else [])
   ++ (if ts
       then [babel_rule ts_files ["@babel/preset-env"; "@babel/preset-typescript"]]
       else [])
   ++ (if react
       then [babel_rule jtsx_files
               (["@babel/preset-env"; "@babel/preset-react"]
                ++ (if ts then ["@babel/preset-typescript"] else []))]
       else []))%list.

(** The rule table of the older [webpack.config.js] in closed form
    ([static_getModuleRules_table] shows that the code computes it). *)
Definition static_rule_table (first : string)
    (tailwind scss xml csv ts react : bool) : list Rule :=
  ([ chain_rule css_files (style_chain first tailwind false false);
     chain_rule image_files [UseStr "file-loader"];
     chain_rule font_files [UseStr "file-loader"];
     script_rule ]
   ++ (if scss
       then [chain_rule scss_files (style_chain first tailwind false true)]
       else [])
   ++ (if xml then [chain_rule xml_files [UseStr "xml-loader"]] else [])
   ++ (if csv then [chain_rule csv_files [UseStr "csv-loader"]] else [])
   ++ (if ts then [babel_rule ts_files ["@babel/preset-env"; "ts"]] else [])
   ++ (if react
       then [babel_rule jsx_files ["@babel/preset-env"; "@babel/preset-react"]]
       else []))%list.

(** The flag lists of the four variants the factory returns. *)
Definition variant_flags : list (list JsValue) :=
  [ [JString "scss"];
    [JString "scss"; JString "tailwind"];
    [JString "scss"; JString "react"; JString "ts"; JString "css-modules"];
    [JString "scss"; JString "react"; JString "ts"; JString "css-modules";
     JString "tailwind"] ].

End Spec.

Export Spec.

(** Sample values for what the files get from Node, used where a statement
    is evaluated on a concrete input: a project in [/app], [path.resolve]
    and [path.join] of an absolute directory and one relative segment. *)

Module Sample.

Definition dirname : string := "/app".

Definition resolve (dir seg : string) : string :=
  if String.eqb seg "." then dir else String.append dir (String.append "/" seg).

Definition join (dir seg : string) : string :=
  String.append dir (String.append "/" seg).

Definition extract_loader : string :=
  "/app/node_modules/mini-css-extract-plugin/dist/loader.js".

Definition factory (env : gmap string JsValue) : list Config :=
  ConfigFactory.module_exports dirname resolve join extract_loader env.

(** Environments handed to the factory. *)
Definition no_env : gmap string JsValue := ∅.
Definition development_env : gmap string JsValue :=
  {[ "MODE" := JString "development" ]}.
Definition dev_env : gmap string JsValue := {[ "MODE" := JString "dev" ]}.
Definition dev_analyze_env : gmap string JsValue :=
  {[ "MODE" := JString "dev"; "ANALYZE" := JBool true ]}.
Definition staging_env : gmap string JsValue :=
  {[ "MODE" := JString "staging" ]}.
Definition port_8080_env : gmap string JsValue := {[ "PORT" := JNumber 8080 ]}.
Definition port_0_env : gmap string JsValue := {[ "PORT" := JNumber 0 ]}.
Definition empty_port_env : gmap string JsValue := {[ "PORT" := JString "" ]}.

(** The first variant of the list, as the source writes it. *)
Definition first_variant (env : gmap string JsValue) : Config :=
  spread_name_entry
    (ConfigFactory.mainConfigOptions dirname resolve join extract_loader env)
    "html-scss-js" {| main := ["@babel/polyfill"; "./index.js"] |}.

Definition rule_table_for (env : gmap string JsValue) (args : list JsValue)
  : list Rule :=
  rules (ConfigFactory.getModuleRules extract_loader env args).

Definition static (process_env : gmap string string) : Config :=
  StaticConfig.module_exports dirname resolve join extract_loader process_env None.

End Sample.


(** * Properties *)

(** ** The JavaScript operators *)

Lemma strict_eq_true (a b : JsValue) : a === b = true ↔ a = b.
Proof.
  destruct a, b; simpl; try (split; [discriminate | congruence]);
    try (split; [reflexivity | done]).
  - rewrite Bool.eqb_true_iff. split; congruence.
  - rewrite Z.eqb_eq. split; congruence.
  - rewrite String.eqb_eq. split; congruence.
  - rewrite Nat.eqb_eq. split; congruence.
Qed.

Lemma strict_eq_decide (a b : JsValue) : a === b = bool_decide (a = b).
Proof.
  destruct (a === b) eqn:E.
  - apply strict_eq_true in E. by rewrite bool_decide_eq_true_2.
  - rewrite bool_decide_eq_false_2; [done |].
    intros H. apply strict_eq_true in H. congruence.
Qed.

(** [findIndex] answers [-1] or a position of the array. *)
Lemma findIndex_range {A} (p : A → bool) (arr : list A) :
  findIndex p arr = (-1)%Z ∨ (0 ≤ findIndex p arr < Z.of_nat (length arr))%Z.
Proof.
  induction arr as [| x rest IH]; simpl; [by left |].
  destruct (p x); [right; lia |].
  destruct (findIndex p rest =? -1)%Z eqn:E; [by left |].
  apply Z.eqb_neq in E. right. lia.
Qed.

(** The position answered holds an element satisfying the predicate, and
    no earlier position does. *)
Lemma findIndex_first {A} (p : A → bool) (arr : list A) (i : nat) :
  findIndex p arr = Z.of_nat i →
  (∃ x, arr !! i = Some x ∧ p x = true) ∧
  (∀ j y, j < i → arr !! j = Some y → p y = false).
Proof.
  revert i. induction arr as [| x rest IH]; simpl; intros i H; [lia |].
  destruct (p x) eqn:Px.
  - assert (i = 0) as -> by lia. split; [eauto | intros; lia].
  - destruct (findIndex p rest =? -1)%Z eqn:E; [lia |].
    destruct i as [| i]; [pose proof (findIndex_range p rest); lia |].
    destruct (IH i) as [Hx Hlt]; [lia |].
    split; [done |].
    intros [| j] y Hj Hy; simpl in Hy; [congruence | eapply Hlt; [| done]; lia].
Qed.

(** [arr.findIndex(p) !== -1] says that some element satisfies [p]. *)
Lemma findIndex_found {A} (p : A → bool) (arr : list A) :
  findIndex p arr !== -1 = existsb p arr.
Proof.
  induction arr as [| x rest IH]; simpl; [done |].
  destruct (p x); simpl; [done |].
  rewrite <- IH.
  destruct (findIndex p rest =? -1)%Z eqn:E; [done |].
  pose proof (findIndex_range p rest). apply Z.eqb_neq in E.
  apply negb_true_iff, Z.eqb_neq. lia.
Qed.

(** The test the source writes for every flag. *)
Lemma has_flag (flag : string) (arr : list JsValue) :
  findIndex (λ ext, ext === flag) arr !== -1 = bool_decide (JString flag ∈ arr).
Proof.
  rewrite findIndex_found.
  induction arr as [| x rest IH].
  - symmetry. apply bool_decide_eq_false_2, not_elem_of_nil.
  - cbn [existsb]. rewrite IH, strict_eq_decide.
    destruct (decide (x = JString flag)) as [-> | Hne].
    + rewrite (bool_decide_eq_true_2 (_ = _)) by done.
      rewrite (bool_decide_eq_true_2 (_ ∈ _ :: _)) by left. done.
    + rewrite (bool_decide_eq_false_2 (x = _)) by done. cbn [orb].
      apply bool_decide_ext. rewrite elem_of_cons.
      split; [by right | intros [E | ?]; [by symmetry in E | done]].
Qed.

(** The falsy values are exactly these. *)
Lemma truthy_false (a : JsValue) :
  truthy a = false ↔
  a = JUndefined ∨ a = JNull ∨ a = JBool false ∨ a = JNumber 0 ∨ a = JString "".
Proof.
  destruct a as [| | [] | n | s | ref]; cbn;
    rewrite ?negb_false_iff, ?Z.eqb_eq, ?String.eqb_eq;
    (split;
     [ intros H; try discriminate H; subst; auto 6
     | intros [H | [H | [H | [H | H]]]];
       try discriminate H; try reflexivity; congruence ]).
Qed.


(** ** The module-rule table of the factory *)

Section RuleTable.

Import ConfigFactory.

Variable L : string.
Variable env : gmap string JsValue.

(** [getModuleRules] computes the table described by [rule_table]. *)
Lemma getModuleRules_table (flags : list JsValue) :
  rules (getModuleRules L env flags) =
    rule_table (if isDev env then "style-loader" else L)
      (supplied "tailwind" flags) (supplied "css-modules" flags)
      (supplied "scss" flags) (supplied "xml" flags) (supplied "csv" flags)
      (supplied "ts" flags) (supplied "react" flags).
Proof.
  unfold getModuleRules, getStyleLoaders, supplied. cbn zeta.
  rewrite !(has_flag _ flags).
  generalize (bool_decide (JString "tailwind" ∈ flags)).
  generalize (bool_decide (JString "css-modules" ∈ flags)).
  generalize (bool_decide (JString "scss" ∈ flags)).
  generalize (bool_decide (JString "xml" ∈ flags)).
  generalize (bool_decide (JString "csv" ∈ flags)).
  generalize (bool_decide (JString "ts" ∈ flags)).
  generalize (bool_decide (JString "react" ∈ flags)).
  generalize (isDev env).
  intros [] [] [] [] [] [] [] []; reflexivity.
Qed.

(** The chain built by [getStyleLoaders], by what its arguments hold. *)
Lemma getStyleLoaders_chain (preset : list JsValue) :
  getStyleLoaders L env preset =
    style_chain (if isDev env then "style-loader" else L)
      (supplied "tailwind" preset) (supplied "css-modules" preset)
      (supplied "scss" preset).
Proof.
  unfold getStyleLoaders, supplied. cbn zeta. rewrite !(has_flag _ preset).
  generalize (bool_decide (JString "tailwind" ∈ preset)).
  generalize (bool_decide (JString "css-modules" ∈ preset)).
  generalize (bool_decide (JString "scss" ∈ preset)).
  intros [] [] []; reflexivity.
Qed.

(** The table only depends on which recognized flags occur among the
    arguments: not on their order, their repetition, or on anything else
    passed along. *)
Lemma getModuleRules_ext (flags flags' : list JsValue) :
  (∀ f : string, f ∈ recognized_flags → JString f ∈ flags ↔ JString f ∈ flags') →
  getModuleRules L env flags = getModuleRules L env flags'.
Proof.
  intros H. unfold getModuleRules.
  assert (∀ f : string, f ∈ recognized_flags →
               findIndex (λ ext, ext === f) flags !== -1
               = findIndex (λ ext, ext === f) flags' !== -1) as E.
  { intros f Hf. rewrite !has_flag. apply bool_decide_ext, H, Hf. }
  rewrite (E "tailwind"), (E "scss"), (E "css-modules"), (E "xml"),
    (E "csv"), (E "ts"), (E "react");
    [reflexivity | unfold recognized_flags; repeat constructor ..].
Qed.

Lemma supplied_true (f : string) (flags : list JsValue) :
  JString f ∈ flags → supplied f flags = true.
Proof. apply bool_decide_eq_true_2. Qed.

Lemma supplied_false (f : string) (flags : list JsValue) :
  JString f ∉ flags → supplied f flags = false.
Proof. apply bool_decide_eq_false_2. Qed.

Lemma filter_supplied {A} (f : string) (flags : list JsValue) (x y : A) :
  (if decide (JString f ∈ flags) then x else y)
  = if supplied f flags then x else y.
Proof. unfold supplied. by rewrite decide_bool_decide. Qed.

(** Every stylesheet rule of a table carries a style chain, and no other
    rule is a stylesheet rule. *)
Lemma rule_table_style_rules (first : string) (tw cm scss xml csv ts react : bool) :
  Forall (λ r, is_style_rule r →
               ∃ pre, use r = Some (style_chain first tw cm pre))
    (rule_table first tw cm scss xml csv ts react).
Proof.
  destruct tw, cm, scss, xml, csv, ts, react;
    cbn [rule_table app];
    repeat (apply List.Forall_cons); try apply List.Forall_nil;
    try (intros [H | H]; discriminate H);
    intros _; eexists; reflexivity.
Qed.

(** C1 (as the code has it).  For every list of flags, the rule table
    consists of four default rules (the [.css] rule, whose chain depends on
    the flags, then the image, font and script rules) followed by one rule
    for each of the flags [scss], [xml], [csv], [ts], [react] that is
    supplied, in that order.  The flags [tailwind] and [css-modules] append
    no rule.  So the table has [4 + n] rules, [n] counting the supplied
    rule-adding flags. *)
Theorem getModuleRules_rule_table (flags : list JsValue) :
  let table := rules (getModuleRules L env flags) in
  (∃ chain,
     take 4 table = [chain_rule css_files chain; image_rule; font_rule; script_rule])
  ∧ test <$> drop 4 table
    = (filter (λ fp : string * RegExp, JString fp.1 ∈ flags) flag_patterns).*2
  ∧ length table
    = 4 + length (filter (λ f : string, JString f ∈ flags) rule_adding_flags).
Proof.
  cbn zeta. rewrite getModuleRules_table.
  unfold rule_adding_flags, flag_patterns.
  cbn [fmap list_fmap fst snd filter list_filter].
  rewrite !filter_supplied.
  destruct (supplied "scss" flags), (supplied "xml" flags),
    (supplied "csv" flags), (supplied "ts" flags), (supplied "react" flags);
    (split; [eexists; reflexivity | split; reflexivity]).
Qed.

(** C4.  When both [ts] and [react] are among the flags, the table has
    exactly one rule for [.jsx]/[.tsx] files; it runs [babel-loader] with
    the presets env, react, typescript, so the typescript preset occurs
    exactly once in its preset list. *)
Theorem react_rule_typescript_preset_once (flags : list JsValue) :
  JString "ts" ∈ flags →
  JString "react" ∈ flags →
  ∃ presets,
    filter (λ r, test r = jtsx_files) (rules (getModuleRules L env flags))
    = [babel_rule jtsx_files presets]
    ∧ presets = ["@babel/preset-env"; "@babel/preset-react";
                 "@babel/preset-typescript"]
    ∧ length (filter (λ p, p = "@babel/preset-typescript") presets) = 1.
Proof.
  intros Hts Hreact. eexists. rewrite getModuleRules_table.
  rewrite (supplied_true "ts"), (supplied_true "react") by done.
  split; [| split; reflexivity].
  destruct (supplied "tailwind" flags), (supplied "css-modules" flags),
    (supplied "scss" flags), (supplied "xml" flags), (supplied "csv" flags);
    reflexivity.
Qed.

(** C6.  A value that is none of the seven recognized flags changes
    nothing, wherever it stands among the arguments: the table is the one
    produced without it.  [getModuleRules] is a total function into rule
    tables; it has no way to report the value. *)
Theorem unknown_flag_ignored (before after : list JsValue) (u : JsValue) :
  u ∉ (JString <$> recognized_flags) →
  getModuleRules L env (before ++ u :: after)
  = getModuleRules L env (before ++ after).
Proof.
  intros Hu. apply getModuleRules_ext. intros f Hf.
  rewrite !elem_of_app, elem_of_cons.
  assert (JString f ≠ u).
  { intros <-. apply Hu. by apply list_elem_of_fmap_2. }
  tauto.
Qed.

(** C7.  When both [scss] and [tailwind] are among the flags, the table
    has exactly one rule for [.scss]/[.sass] files, and its chain ends with
    [postcss-loader] followed by [sass-loader]: the utility-css processor
    stands at position 2, the preprocessor right after it at position 3. *)
Theorem scss_chain_postcss_before_sass (flags : list JsValue) :
  JString "scss" ∈ flags →
  JString "tailwind" ∈ flags →
  ∃ first css_entry chain,
    filter (λ r, test r = scss_files) (rules (getModuleRules L env flags))
    = [chain_rule scss_files chain]
    ∧ chain = [first; css_entry; UseStr "postcss-loader"; UseStr "sass-loader"]
    ∧ ∃ i j, chain !! i = Some (UseStr "postcss-loader")
             ∧ chain !! j = Some (UseStr "sass-loader")
             ∧ i < j.
Proof.
  intros Hscss Htw.
  exists (UseStr (if isDev env then "style-loader" else L)),
    (if supplied "css-modules" flags
     then css_modules_loader else UseStr "css-loader").
  eexists. split; [| split; [reflexivity |]].
  - rewrite getModuleRules_table.
    rewrite (supplied_true "scss"), (supplied_true "tailwind") by done.
    destruct (supplied "css-modules" flags), (supplied "xml" flags),
      (supplied "csv" flags), (supplied "ts" flags), (supplied "react" flags);
      reflexivity.
  - exists 2, 3. split; [reflexivity | split; [reflexivity | lia]].
Qed.

Lemma supplied_without_css_modules (f : string) (flags : list JsValue) :
  supplied f (filter (λ a, a ≠ JString "css-modules") flags)
  = if String.eqb f "css-modules" then false else supplied f flags.
Proof.
  unfold supplied. destruct (String.eqb f "css-modules") eqn:E.
  - apply String.eqb_eq in E as ->. apply bool_decide_eq_false_2.
    rewrite list_elem_of_filter. tauto.
  - apply String.eqb_neq in E. apply bool_decide_ext.
    rewrite list_elem_of_filter. split; [tauto |].
    intros H. split; [congruence | done].
Qed.

(** C10.  The [css-modules] flag appends no rule: the table has the same
    patterns as the table produced from the flags without it, and the
    [.css] rule is there either way.  In every stylesheet rule (the [.css]
    rule and, when there is one, the [.scss]/[.sass] rule) the entry at the
    [css-loader] position is the plain name ["css-loader"] without the
    flag, and with the flag the [css-loader] configured with [modules],
    whose [auto] pattern is [/\.module\.\w+/i]; the table with the flag is
    the table without it with exactly that entry replaced. *)
Theorem css_modules_flag_replaces_css_loader (flags : list JsValue) :
  let table := rules (getModuleRules L env flags) in
  let plain :=
    rules (getModuleRules L env (filter (λ a, a ≠ JString "css-modules") flags)) in
  test <$> table = test <$> plain
  ∧ css_files ∈ test <$> table
  ∧ (∀ r, r ∈ table → is_style_rule r →
       ∃ chain, use r = Some chain
                ∧ chain !! 1 = Some (if supplied "css-modules" flags
                                     then css_modules_loader
                                     else UseStr "css-loader"))
  ∧ (JString "css-modules" ∈ flags →
       table = with_css_loader css_modules_loader <$> plain)
  ∧ (JString "css-modules" ∉ flags → table = plain)
  ∧ ∃ m, css_modules_loader = UseObj "css-loader" (CssLoaderOptions m)
         ∧ auto m = {| source := "\.module\.\w+"; flags := "i" |}.
Proof.
  cbn zeta. rewrite !getModuleRules_table, !supplied_without_css_modules.
  cbn [String.eqb Ascii.eqb Bool.eqb].
  repeat split.
  - destruct (supplied "scss" flags), (supplied "xml" flags),
      (supplied "csv" flags), (supplied "ts" flags), (supplied "react" flags);
      reflexivity.
  - apply list_elem_of_fmap. eexists. split; [| apply list_elem_of_here].
    reflexivity.
  - intros r Hr Hstyle.
    pose proof (rule_table_style_rules
                  (if isDev env then "style-loader" else L)
                  (supplied "tailwind" flags) (supplied "css-modules" flags)
                  (supplied "scss" flags) (supplied "xml" flags)
                  (supplied "csv" flags) (supplied "ts" flags)
                  (supplied "react" flags)) as Hall.
    rewrite Forall_forall in Hall.
    destruct (Hall r Hr Hstyle) as [pre ->]. eexists. split; [reflexivity |].
    by destruct (supplied "css-modules" flags).
  - intros Hcm. rewrite (supplied_true "css-modules") by done.
    destruct (supplied "tailwind" flags), (supplied "scss" flags),
      (supplied "xml" flags), (supplied "csv" flags), (supplied "ts" flags),
      (supplied "react" flags); reflexivity.
  - intros Hcm. by rewrite (supplied_false "css-modules").
  - eexists. split; reflexivity.
Qed.

End RuleTable.

(** ** The configurations returned by the factory *)

Section Variants.

Import ConfigFactory.

Variable dir : string.
Variables resolve_path join_path : string → string → string.
Variable L : string.

(** What the variants share, and where their rule tables come from. *)
Lemma module_exports_fields (env : gmap string JsValue) :
  Forall (λ c,
            mode c = (if isDev env then "development" else "production")
            ∧ optimization c = getOptimization env
            ∧ port (devServer c) = PORT env
            ∧ plugins c
              = [ HtmlWebpackPlugin "./index.html" (negb (isDev env)) (negb (isDev env));
                  CleanWebpackPlugin;
                  MiniCssExtractPlugin "[name].[hash].css";
                  Dotenv ]
            ∧ ∃ flags, flags ∈ variant_flags
                       ∧ module c = getModuleRules L env flags)
    (module_exports dir resolve_path join_path L env).
Proof.
  assert (mode (mainConfigOptions dir resolve_path join_path L env)
          = if isDev env then "development" else "production") as Hmode.
  { unfold mainConfigOptions, MODE_DEV. cbn [mode nullish truthy].
    by destruct (isDev env). }
  assert (plugins (mainConfigOptions dir resolve_path join_path L env)
          = [ HtmlWebpackPlugin "./index.html" (negb (isDev env)) (negb (isDev env));
              CleanWebpackPlugin;
              MiniCssExtractPlugin "[name].[hash].css";
              Dotenv ]) as Hplugins.
  { unfold mainConfigOptions. cbn [plugins]. by destruct (isDev env). }
  unfold module_exports, variant_flags.
  repeat apply List.Forall_cons; try apply List.Forall_nil;
    (split; [exact Hmode |]); (split; [reflexivity |]);
    (split; [reflexivity |]); (split; [exact Hplugins |]).
  - eexists. split; [apply list_elem_of_here | reflexivity].
  - eexists. split; [do 1 apply list_elem_of_further; apply list_elem_of_here |].
    reflexivity.
  - eexists. split; [do 2 apply list_elem_of_further; apply list_elem_of_here |].
    reflexivity.
  - eexists. split; [do 3 apply list_elem_of_further; apply list_elem_of_here |].
    reflexivity.
Qed.

Lemma isDev_false (env : gmap string JsValue) :
  get env "MODE" ≠ JString "development" →
  get env "MODE" ≠ JString "dev" →
  isDev env = false.
Proof.
  intros H1 H2. unfold isDev. rewrite !strict_eq_decide.
  by rewrite !bool_decide_eq_false_2.
Qed.

(** [isDev] holds for the two strings and for nothing else. *)
Lemma isDev_true (env : gmap string JsValue) :
  isDev env = true ↔
  get env "MODE" = JString "development" ∨ get env "MODE" = JString "dev".
Proof.
  unfold isDev. rewrite orb_true_iff, !strict_eq_true. reflexivity.
Qed.

(** No loader of a style chain is ["style-loader"], unless the first one
    is. *)
Lemma style_chain_no_style_loader (first : string) (tw cm pre : bool) :
  first ≠ "style-loader" →
  UseStr "style-loader" ∉ style_chain first tw cm pre.
Proof.
  intros Hne Hin. unfold style_chain in Hin.
  destruct tw, cm, pre; cbn [app] in Hin;
    repeat (apply elem_of_cons in Hin as [Heq | Hin]; [try discriminate Heq |]);
    try (by apply elem_of_nil in Hin); congruence.
Qed.

(** C2.  Every configuration returned by the factory is in development
    or in production mode; in development mode its optimization policy has
    no [minimizer] entry, in production mode its [minimizer] is the terser
    plugin.  The policy is the value of [getOptimization], which takes no
    flags: it is the same whatever flags a variant is built from. *)
Theorem minimizer_by_mode (env : gmap string JsValue) (c : Config) :
  c ∈ module_exports dir resolve_path join_path L env →
  optimization c = getOptimization env
  ∧ (mode c = "development" ∨ mode c = "production")
  ∧ (mode c = "development" → minimizer (optimization c) = None)
  ∧ (mode c = "production" →
       minimizer (optimization c) = Some [TerserWebpackPlugin]).
Proof.
  intros Hc.
  pose proof (module_exports_fields env) as Hall.
  rewrite Forall_forall in Hall.
  destruct (Hall c Hc) as (Hmode & Hopt & _).
  rewrite Hmode, Hopt. unfold getOptimization.
  destruct (isDev env); cbn; repeat split; auto; discriminate.
Qed.

(** C3 (as the code has it).  In production mode the first variant, the
    one built from the single flag [scss], has the five-rule table
    [.css] rule, image rule, font rule, script rule, [.scss]/[.sass] rule;
    the chain of the [.css] rule is the extraction loader and
    [css-loader], the chain of the [.scss]/[.sass] rule is the extraction
    loader, [css-loader] and [sass-loader].  The plugin list holds the
    stylesheet-extraction plugin, and no chain of the table names
    [style-loader] (the extraction loader being another loader). *)
Theorem scss_production_scenario (env : gmap string JsValue) (c : Config) :
  module_exports dir resolve_path join_path L env !! 0 = Some c →
  mode c = "production" →
  name c = Some "html-scss-js"
  ∧ module c = getModuleRules L env [JString "scss"]
  ∧ rules (module c)
    = [ chain_rule css_files [UseStr L; UseStr "css-loader"];
        image_rule; font_rule; script_rule;
        chain_rule scss_files
          [UseStr L; UseStr "css-loader"; UseStr "sass-loader"] ]
  ∧ MiniCssExtractPlugin "[name].[hash].css" ∈ plugins c
  ∧ (L ≠ "style-loader" →
     ∀ r chain, r ∈ rules (module c) → use r = Some chain →
                UseStr "style-loader" ∉ chain).
Proof.
  intros Hc Hprod.
  assert (c ∈ module_exports dir resolve_path join_path L env) as Hin
      by (by eapply list_elem_of_lookup_2).
  pose proof (module_exports_fields env) as Hall.
  rewrite Forall_forall in Hall.
  destruct (Hall c Hin) as (Hmode & _ & _ & Hplugins & _).
  assert (isDev env = false) as Hdev.
  { rewrite Hprod in Hmode. by destruct (isDev env). }
  assert (name c = Some "html-scss-js"
          ∧ module c = getModuleRules L env [JString "scss"]) as [Hname Hmod].
  { unfold module_exports in Hc. cbn [lookup list_lookup] in Hc.
    injection Hc as <-. split; reflexivity. }
  rewrite Hname, Hmod, Hplugins, getModuleRules_table, Hdev.
  split; [reflexivity |]. split; [reflexivity |].
  split; [reflexivity |]. split.
  - do 2 apply list_elem_of_further. apply list_elem_of_here.
  - intros HL r chain Hr Hchain Hbad.
    cbv [supplied bool_decide] in Hr. cbn in Hr.
    repeat (apply elem_of_cons in Hr as [-> | Hr]);
      try (by apply elem_of_nil in Hr);
      cbn in Hchain; try discriminate Hchain;
      injection Hchain as <-;
      repeat (apply elem_of_cons in Hbad as [Heq | Hbad];
              [try discriminate Heq; congruence |]);
      by apply elem_of_nil in Hbad.
Qed.

(** The helper functions read [env] through [isDev] only. *)
Lemma getStyleLoaders_env (env1 env2 : gmap string JsValue) (preset : list JsValue) :
  isDev env1 = isDev env2 →
  getStyleLoaders L env1 preset = getStyleLoaders L env2 preset.
Proof. intros H. unfold getStyleLoaders. by rewrite H. Qed.

Lemma getModuleRules_env (env1 env2 : gmap string JsValue) (flags : list JsValue) :
  isDev env1 = isDev env2 →
  getModuleRules L env1 flags = getModuleRules L env2 flags.
Proof.
  intros H. unfold getModuleRules.
  by rewrite !(getStyleLoaders_env env1 env2 _ H).
Qed.

Lemma getOptimization_env (env1 env2 : gmap string JsValue) :
  isDev env1 = isDev env2 → getOptimization env1 = getOptimization env2.
Proof. intros H. unfold getOptimization. by rewrite H. Qed.

Lemma mainConfigOptions_env (env1 env2 : gmap string JsValue) :
  isDev env1 = isDev env2 →
  PORT env1 = PORT env2 →
  mainConfigOptions dir resolve_path join_path L env1
  = mainConfigOptions dir resolve_path join_path L env2.
Proof.
  intros Hdev HP. unfold mainConfigOptions, MODE_DEV.
  by rewrite Hdev, HP, (getOptimization_env env1 env2 Hdev),
    (getModuleRules_env env1 env2 _ Hdev).
Qed.

(** C5.  The value returned by the factory is determined by what [env]
    holds under [MODE] and [PORT]: two calls whose environments agree on
    these two properties return equal lists of configurations, whatever
    else the environments hold.  In particular two calls with the same
    environment do. *)
Theorem factory_deterministic (env1 env2 : gmap string JsValue) :
  get env1 "MODE" = get env2 "MODE" →
  get env1 "PORT" = get env2 "PORT" →
  module_exports dir resolve_path join_path L env1
  = module_exports dir resolve_path join_path L env2.
Proof.
  intros Hmode Hport.
  assert (isDev env1 = isDev env2) as Hdev by (unfold isDev; by rewrite Hmode).
  assert (PORT env1 = PORT env2) as HP by (unfold PORT; by rewrite Hport).
  unfold module_exports.
  by rewrite (mainConfigOptions_env env1 env2 Hdev HP),
    !(getModuleRules_env env1 env2 _ Hdev).
Qed.

(** C8 (as the code has it).  In every configuration returned by the
    factory, the port of the development server is 3000 when [env] has no
    [PORT], and also when [env.PORT] is a falsy value (the number 0, the
    empty string, [null], [false], [undefined]); any other [env.PORT] is
    used as it is. *)
Theorem devServer_port (env : gmap string JsValue) (c : Config) :
  c ∈ module_exports dir resolve_path join_path L env →
  (env !! "PORT" = None → port (devServer c) = JNumber 3000)
  ∧ (∀ p, env !! "PORT" = Some p → truthy p = true → port (devServer c) = p)
  ∧ (∀ p, env !! "PORT" = Some p → truthy p = false →
          port (devServer c) = JNumber 3000).
Proof.
  intros Hc.
  pose proof (module_exports_fields env) as Hall.
  rewrite Forall_forall in Hall.
  destruct (Hall c Hc) as (_ & _ & -> & _).
  unfold PORT, get, or_else. repeat split.
  - by intros ->.
  - intros p -> Hp. cbn. by rewrite Hp.
  - intros p -> Hp. cbn. by rewrite Hp.
Qed.

(** C9.  When [env.MODE] is neither the string ["development"] nor the
    string ["dev"] (absent, ["production"], any other value), every
    configuration returned by the factory has mode ["production"], has the
    terser plugin as [minimizer], and every stylesheet rule of its table
    has a chain that starts with the extraction loader; the chain does not
    name [style-loader] (the extraction loader being another loader). *)
Theorem non_dev_mode_is_production (env : gmap string JsValue) (c : Config) :
  get env "MODE" ≠ JString "development" →
  get env "MODE" ≠ JString "dev" →
  c ∈ module_exports dir resolve_path join_path L env →
  mode c = "production"
  ∧ minimizer (optimization c) = Some [TerserWebpackPlugin]
  ∧ (∃ r, r ∈ rules (module c) ∧ is_style_rule r)
  ∧ ∀ r, r ∈ rules (module c) → is_style_rule r →
         ∃ chain, use r = Some chain
                  ∧ head chain = Some (UseStr L)
                  ∧ (L ≠ "style-loader" → UseStr "style-loader" ∉ chain).
Proof.
  intros H1 H2 Hc.
  pose proof (isDev_false env H1 H2) as Hdev.
  pose proof (module_exports_fields env) as Hall.
  rewrite Forall_forall in Hall.
  destruct (Hall c Hc) as (-> & -> & _ & _ & flags & _ & ->).
  unfold getOptimization. rewrite getModuleRules_table, Hdev.
  split; [reflexivity |]. split; [reflexivity |]. split.
  - eexists. split; [apply list_elem_of_here | by left].
  - intros r Hr Hstyle.
    pose proof (rule_table_style_rules L
                  (supplied "tailwind" flags) (supplied "css-modules" flags)
                  (supplied "scss" flags) (supplied "xml" flags)
                  (supplied "csv" flags) (supplied "ts" flags)
                  (supplied "react" flags)) as Hstyles.
    rewrite Forall_forall in Hstyles.
    destruct (Hstyles r Hr Hstyle) as [pre ->].
    eexists. split; [reflexivity |]. split; [reflexivity |].
    intros HL. by apply style_chain_no_style_loader.
Qed.

End Variants.

(** ** The older top-level configuration

    The same properties on [webpack.config.js], where the claims name it. *)

Section StaticFacts.

Import StaticConfig.

Variable dir : string.
Variables resolve_path join_path : string → string → string.
Variable L : string.
Variable process_env : gmap string string.
Variable dotenv_parsed : option (gmap string string).

Lemma static_getModuleRules_table (flags : list JsValue) :
  rules (getModuleRules L process_env flags) =
    static_rule_table (if isDev process_env then "style-loader" else L)
      (supplied "tailwind" flags) (supplied "scss" flags)
      (supplied "xml" flags) (supplied "csv" flags)
      (supplied "ts" flags) (supplied "react" flags).
Proof.
  unfold getModuleRules, getStyleLoaders, supplied. cbn zeta.
  rewrite !(has_flag _ flags).
  generalize (bool_decide (JString "tailwind" ∈ flags)).
  generalize (bool_decide (JString "scss" ∈ flags)).
  generalize (bool_decide (JString "xml" ∈ flags)).
  generalize (bool_decide (JString "csv" ∈ flags)).
  generalize (bool_decide (JString "ts" ∈ flags)).
  generalize (bool_decide (JString "react" ∈ flags)).
  generalize (isDev process_env).
  intros [] [] [] [] [] [] []; reflexivity.
Qed.

(** C1 on the older file: four default rules as well, and one rule for
    each supplied flag among [scss], [xml], [csv], [ts], [react]. *)
Lemma static_rule_count (flags : list JsValue) :
  length (rules (getModuleRules L process_env flags))
  = 4 + length (filter (λ f : string, JString f ∈ flags) rule_adding_flags).
Proof.
  rewrite static_getModuleRules_table.
  unfold rule_adding_flags, flag_patterns.
  cbn [fmap list_fmap fst filter list_filter].
  rewrite !filter_supplied.
  by destruct (supplied "scss" flags), (supplied "xml" flags),
    (supplied "csv" flags), (supplied "ts" flags), (supplied "react" flags).
Qed.

Lemma static_mode :
  mode (module_exports dir resolve_path join_path L process_env dotenv_parsed)
  = if isDev process_env then "development" else "production".
Proof.
  unfold module_exports, MODE_DEV. cbn [mode nullish truthy].
  by destruct (isDev process_env).
Qed.

(** C2 on the older file. *)
Lemma static_minimizer_follows_mode :
  let c := module_exports dir resolve_path join_path L process_env dotenv_parsed in
  (mode c = "development" → minimizer (optimization c) = None)
  ∧ (mode c = "production" →
       minimizer (optimization c) = Some [TerserWebpackPlugin]).
Proof.
  cbn zeta. rewrite static_mode.
  unfold module_exports, getOptimization. cbn [optimization].
  destruct (isDev process_env); cbn; split; auto; discriminate.
Qed.

(** C7 on the older file: the chain of the [.scss]/[.sass] rule ends with
    [postcss-loader] followed by [sass-loader]. *)
Lemma static_scss_chain_order (flags : list JsValue) :
  JString "scss" ∈ flags →
  JString "tailwind" ∈ flags →
  filter (λ r, test r = scss_files) (rules (getModuleRules L process_env flags))
  = [ chain_rule scss_files
        [ UseStr (if isDev process_env then "style-loader" else L);
          UseStr "css-loader"; UseStr "postcss-loader"; UseStr "sass-loader" ] ].
Proof.
  intros Hscss Htw. rewrite static_getModuleRules_table.
  rewrite (supplied_true "scss"), (supplied_true "tailwind") by done.
  by destruct (supplied "xml" flags), (supplied "csv" flags),
    (supplied "ts" flags), (supplied "react" flags).
Qed.

(** C9 on the older file. *)
Lemma static_production_unless_dev :
  process_env !! "MODE" ≠ Some "development" →
  process_env !! "MODE" ≠ Some "dev" →
  let c := module_exports dir resolve_path join_path L process_env dotenv_parsed in
  mode c = "production"
  ∧ minimizer (optimization c) = Some [TerserWebpackPlugin]
  ∧ rules (module c)
    = [ chain_rule css_files [UseStr L; UseStr "css-loader"];
        chain_rule image_files [UseStr "file-loader"];
        chain_rule font_files [UseStr "file-loader"];
        script_rule;
        chain_rule scss_files
          [UseStr L; UseStr "css-loader"; UseStr "sass-loader"] ].
Proof.
  intros H1 H2. cbn zeta.
  assert (isDev process_env = false) as Hdev.
  { unfold isDev, process_env_get. rewrite !strict_eq_decide.
    destruct (process_env !! "MODE") as [v |]; cbn; [| reflexivity].
    rewrite !bool_decide_eq_false_2; [reflexivity | |]; congruence. }
  rewrite static_mode. unfold module_exports. cbn [optimization module].
  rewrite static_getModuleRules_table. unfold getOptimization.
  rewrite Hdev. repeat split.
Qed.

(** C8 on the older file: an empty [PORT] variable is replaced by 3000,
    any other value of the variable is used as the string it is. *)
Lemma static_port :
  port (devServer (module_exports dir resolve_path join_path L
                     process_env dotenv_parsed))
  = match process_env !! "PORT" with
    | None => JNumber 3000
    | Some v => if String.eqb v "" then JNumber 3000 else JString v
    end.
Proof.
  unfold module_exports, PORT, process_env_get, or_else. cbn [devServer port].
  destruct (process_env !! "PORT") as [v |]; cbn; [| reflexivity].
  by destruct (String.eqb v "").
Qed.

End StaticFacts.

(** ** The statements of the specification that the code does not satisfy *)

(** C1, as the specification words it, fails on the empty flag list: the
    table has four rules, not three, and they are not the image, font and
    script rules alone (the [.css] rule comes first).  It also fails on the
    two recognized flags [tailwind] and [css-modules]: supplying them
    appends no rule to the four. *)
Lemma three_default_rules_counterexample :
  length (Sample.rule_table_for Sample.no_env []) ≠ claimed_rule_count []
  ∧ test <$> Sample.rule_table_for Sample.no_env []
    ≠ [image_files; font_files; js_files]
  ∧ test <$> Sample.rule_table_for Sample.no_env []
    = [css_files; image_files; font_files; js_files]
  ∧ length (Sample.rule_table_for Sample.no_env
              [JString "tailwind"; JString "css-modules"])
    ≠ claimed_rule_count [JString "tailwind"; JString "css-modules"]
  ∧ test <$> Sample.rule_table_for Sample.no_env
               [JString "tailwind"; JString "css-modules"]
    = [css_files; image_files; font_files; js_files].
Proof. vm_compute. repeat split; discriminate. Qed.

(** C3, as the specification words it, fails in the scenario it names
    (no [MODE], so production; first variant, built from [scss]): the
    table is not made of the image, font, script and stylesheet rules, and
    the chain of its [.scss]/[.sass] rule is not the preprocessor alone. *)
Lemma scss_production_counterexample :
  Sample.factory Sample.no_env !! 0 = Some (Sample.first_variant Sample.no_env)
  ∧ mode (Sample.first_variant Sample.no_env) = "production"
  ∧ test <$> rules (module (Sample.first_variant Sample.no_env))
    ≠ [image_files; font_files; js_files; scss_files]
  ∧ chain_rule scss_files [UseStr "sass-loader"]
    ∉ rules (module (Sample.first_variant Sample.no_env)).
Proof.
  split; [reflexivity |]. split; [reflexivity |]. split.
  - vm_compute. discriminate.
  - apply (bool_decide_unpack _). vm_compute. exact I.
Qed.

(** C8, as the specification words it, fails when the port supplied is the
    number 0: it is not used, the server gets port 3000. *)
Lemma supplied_port_counterexample :
  Sample.port_0_env !! "PORT" = Some (JNumber 0)
  ∧ Sample.first_variant Sample.port_0_env ∈ Sample.factory Sample.port_0_env
  ∧ port (devServer (Sample.first_variant Sample.port_0_env)) ≠ JNumber 0
  ∧ port (devServer (Sample.first_variant Sample.port_0_env)) = JNumber 3000.
Proof.
  split; [reflexivity |]. split; [apply list_elem_of_here |].
  split; [| reflexivity]. vm_compute. discriminate.
Qed.

(** The same with the empty string, which is what a command line can
    deliver for a port given without a value. *)
Example empty_port_is_replaced :
  Sample.empty_port_env !! "PORT" = Some (JString "")
  ∧ port (devServer (Sample.first_variant Sample.empty_port_env)) = JNumber 3000.
Proof. split; reflexivity. Qed.

(** The older file with [MODE=dev] and an empty [PORT] variable. *)
Example static_dev_empty_port :
  let c := Sample.static {[ "MODE" := "dev"; "PORT" := "" ]} in
  mode c = "development"
  ∧ minimizer (optimization c) = None
  ∧ port (devServer c) = JNumber 3000
  ∧ length (rules (module c)) = 5.
Proof. vm_compute. repeat split. Qed.

(** ** The theorems on concrete inputs *)

(** C2 in the development environment [{ MODE: "development" }]. *)
Lemma minimizer_by_mode_witness :
  Sample.first_variant Sample.development_env
    ∈ Sample.factory Sample.development_env
  ∧ mode (Sample.first_variant Sample.development_env) = "development"
  ∧ minimizer (optimization (Sample.first_variant Sample.development_env))
    = None.
Proof.
  split; [apply list_elem_of_here |]. split; [reflexivity |].
  destruct (minimizer_by_mode Sample.dirname Sample.resolve Sample.join
              Sample.extract_loader Sample.development_env
              (Sample.first_variant Sample.development_env))
    as (_ & _ & Hdev & _); [apply list_elem_of_here |].
  apply Hdev. reflexivity.
Defined.

(** C3 (as the code has it) in the environment without [MODE]. *)
Lemma scss_production_scenario_witness :
  Sample.factory Sample.no_env !! 0 = Some (Sample.first_variant Sample.no_env)
  ∧ mode (Sample.first_variant Sample.no_env) = "production"
  ∧ rules (module (Sample.first_variant Sample.no_env))
    = [ chain_rule css_files
          [UseStr Sample.extract_loader; UseStr "css-loader"];
        image_rule; font_rule; script_rule;
        chain_rule scss_files
          [UseStr Sample.extract_loader; UseStr "css-loader";
           UseStr "sass-loader"] ].
Proof.
  split; [reflexivity |]. split; [reflexivity |].
  destruct (scss_production_scenario Sample.dirname Sample.resolve Sample.join
              Sample.extract_loader Sample.no_env
              (Sample.first_variant Sample.no_env))
    as (_ & _ & Htable & _); [reflexivity | reflexivity |].
  exact Htable.
Defined.

(** C4 on the flags [react], [ts]. *)
Lemma react_rule_typescript_preset_once_witness :
  JString "ts" ∈ [JString "react"; JString "ts"]
  ∧ JString "react" ∈ [JString "react"; JString "ts"]
  ∧ ∃ presets,
      filter (λ r, test r = jtsx_files)
        (Sample.rule_table_for Sample.no_env [JString "react"; JString "ts"])
      = [babel_rule jtsx_files presets]
      ∧ presets = ["@babel/preset-env"; "@babel/preset-react";
                   "@babel/preset-typescript"]
      ∧ length (filter (λ p, p = "@babel/preset-typescript") presets) = 1.
Proof.
  split; [apply list_elem_of_further, list_elem_of_here |].
  split; [apply list_elem_of_here |].
  apply (react_rule_typescript_preset_once Sample.extract_loader Sample.no_env
           [JString "react"; JString "ts"]);
    [apply list_elem_of_further, list_elem_of_here | apply list_elem_of_here].
Defined.

(** C5 on two environments that differ outside [MODE] and [PORT]. *)
Lemma factory_deterministic_witness :
  get Sample.dev_env "MODE" = get Sample.dev_analyze_env "MODE"
  ∧ get Sample.dev_env "PORT" = get Sample.dev_analyze_env "PORT"
  ∧ Sample.dev_env ≠ Sample.dev_analyze_env
  ∧ Sample.factory Sample.dev_env = Sample.factory Sample.dev_analyze_env.
Proof.
  split; [reflexivity |]. split; [reflexivity |]. split.
  - intros H. apply (f_equal (λ m : gmap string JsValue, m !! "ANALYZE")) in H.
    vm_compute in H. discriminate H.
  - apply (factory_deterministic Sample.dirname Sample.resolve Sample.join
             Sample.extract_loader); reflexivity.
Defined.

(** C6 on the unknown flag [less] between [scss] and [tailwind]. *)
Lemma unknown_flag_ignored_witness :
  (JString "less" ∉ (JString <$> recognized_flags))
  ∧ ConfigFactory.getModuleRules Sample.extract_loader Sample.no_env
      [JString "scss"; JString "less"; JString "tailwind"]
    = ConfigFactory.getModuleRules Sample.extract_loader Sample.no_env
        [JString "scss"; JString "tailwind"].
Proof.
  assert (JString "less" ∉ (JString <$> recognized_flags)) as Hu.
  { apply (bool_decide_unpack _). vm_compute. exact I. }
  split; [exact Hu |].
  exact (unknown_flag_ignored Sample.extract_loader Sample.no_env
           [JString "scss"] [JString "tailwind"] (JString "less") Hu).
Defined.

(** C7 on the flags [scss], [tailwind]. *)
Lemma scss_chain_postcss_before_sass_witness :
  JString "scss" ∈ [JString "scss"; JString "tailwind"]
  ∧ JString "tailwind" ∈ [JString "scss"; JString "tailwind"]
  ∧ ∃ first css_entry chain,
      filter (λ r, test r = scss_files)
        (Sample.rule_table_for Sample.no_env [JString "scss"; JString "tailwind"])
      = [chain_rule scss_files chain]
      ∧ chain = [first; css_entry; UseStr "postcss-loader"; UseStr "sass-loader"]
      ∧ ∃ i j, chain !! i = Some (UseStr "postcss-loader")
               ∧ chain !! j = Some (UseStr "sass-loader")
               ∧ i < j.
Proof.
  split; [apply list_elem_of_here |].
  split; [apply list_elem_of_further, list_elem_of_here |].
  apply (scss_chain_postcss_before_sass Sample.extract_loader Sample.no_env
           [JString "scss"; JString "tailwind"]);
    [apply list_elem_of_here | apply list_elem_of_further, list_elem_of_here].
Defined.

(** C8 (as the code has it) with [PORT] 8080. *)
Lemma devServer_port_witness :
  Sample.first_variant Sample.port_8080_env ∈ Sample.factory Sample.port_8080_env
  ∧ Sample.port_8080_env !! "PORT" = Some (JNumber 8080)
  ∧ truthy (JNumber 8080) = true
  ∧ port (devServer (Sample.first_variant Sample.port_8080_env)) = JNumber 8080.
Proof.
  split; [apply list_elem_of_here |]. split; [reflexivity |].
  split; [reflexivity |].
  destruct (devServer_port Sample.dirname Sample.resolve Sample.join
              Sample.extract_loader Sample.port_8080_env
              (Sample.first_variant Sample.port_8080_env))
    as (_ & Hport & _); [apply list_elem_of_here |].
  apply Hport; reflexivity.
Defined.

(** C9 with a [MODE] that is not a mode at all. *)
Lemma non_dev_mode_is_production_witness :
  get Sample.staging_env "MODE" ≠ JString "development"
  ∧ get Sample.staging_env "MODE" ≠ JString "dev"
  ∧ Sample.first_variant Sample.staging_env ∈ Sample.factory Sample.staging_env
  ∧ mode (Sample.first_variant Sample.staging_env) = "production"
  ∧ minimizer (optimization (Sample.first_variant Sample.staging_env))
    = Some [TerserWebpackPlugin].
Proof.
  assert (get Sample.staging_env "MODE" ≠ JString "development")
    as H1 by (vm_compute; discriminate).
  assert (get Sample.staging_env "MODE" ≠ JString "dev")
    as H2 by (vm_compute; discriminate).
  split; [exact H1 |]. split; [exact H2 |].
  split; [apply list_elem_of_here |].
  destruct (non_dev_mode_is_production Sample.dirname Sample.resolve Sample.join
              Sample.extract_loader Sample.staging_env
              (Sample.first_variant Sample.staging_env) H1 H2)
    as (Hmode & Hmin & _); [apply list_elem_of_here |].
  split; [exact Hmode | exact Hmin].
Defined.

(** C10 on the flags of the third variant. *)
Lemma css_modules_flag_replaces_css_loader_witness :
  JString "css-modules"
    ∈ [JString "scss"; JString "react"; JString "ts"; JString "css-modules"]
  ∧ Sample.rule_table_for Sample.no_env
      [JString "scss"; JString "react"; JString "ts"; JString "css-modules"]
    = with_css_loader css_modules_loader
        <$> Sample.rule_table_for Sample.no_env
              [JString "scss"; JString "react"; JString "ts"].
Proof.
  assert (JString "css-modules"
            ∈ [JString "scss"; JString "react"; JString "ts"; JString "css-modules"])
    as Hcm by (do 3 apply list_elem_of_further; apply list_elem_of_here).
  split; [exact Hcm |].
  destruct (css_modules_flag_replaces_css_loader Sample.extract_loader
              Sample.no_env
              [JString "scss"; JString "react"; JString "ts"; JString "css-modules"])
    as (_ & _ & _ & Hwith & _).
  exact (Hwith Hcm).
Defined.
